(** * A shallow embedding of [pymaker/auctions.py]

    The three auction clients [Flipper], [Flapper] and [Flopper] of
    pymaker are thin wrappers around a contract binding: reads go to the
    ledger through [self._contract.call()], mutating methods build a
    [Transact] request object and return it.

    The client object lives on the Python heap together with its ledger
    connection, so methods are modelled in a small state/exception monad
    over a [World] that holds the client object ([self]), the contract's
    ledger state and the log of ledger calls made so far.  Python's
    [isinstance] assertions on arguments are discharged by Rocq's types. *)

From Stdlib Require Import ZArith List String Ascii Bool Lia.
Import ListNotations.
Open Scope string_scope.
Open Scope Z_scope.

(** ** Values of the pymaker package used by the clients *)

(** Modelled from the spec: [pymaker.Address] (defined in the package's
    [__init__], not in this source tree), a 20-byte identifier carried as
    its string form; [.address] is that string. *)
Module Address.
Record t := mk { address : string }.
End Address.

(** Modelled from the spec: [pymaker.Wad] (in [pymaker.numeric], not in this
    source tree), the opaque scaled integer "Amount"; [.value] is the raw
    integer. *)
Record Wad := mkWad { value : Z }.

(** Python values exchanged with a contract: call arguments and the
    entries of a returned tuple. *)
Inductive PyValue :=
| PyInt (z : Z)
| PyStr (s : string).

(** The Python exceptions these methods can raise. *)
Inductive PyExn :=
| AssertionError
| IndexError
| ValueError
| AttributeError.

Inductive result (A : Type) :=
| Ok (a : A)
| Err (e : PyExn).
Arguments Ok {A} a.
Arguments Err {A} e.

(** Modelled from the spec: the constructor [Wad(x)] of [pymaker.Wad]
    asserts an integer. *)
Definition to_Wad (x : PyValue) : result Wad :=
  match x with
  | PyInt z => Ok (mkWad z)
  | PyStr _ => Err AssertionError
  end.

Definition ascii_code (c : ascii) : nat := nat_of_ascii c.

Definition is_digit (c : ascii) : bool :=
  (48 <=? ascii_code c)%nat && (ascii_code c <=? 57)%nat.

Definition digit_value (c : ascii) : Z := Z.of_nat (ascii_code c - 48).

(** [0-9], [a-f], [A-F]. *)
Definition is_hex_digit (c : ascii) : bool :=
  is_digit c ||
  ((97 <=? ascii_code c)%nat && (ascii_code c <=? 102)%nat) ||
  ((65 <=? ascii_code c)%nat && (ascii_code c <=? 70)%nat).

Definition lower_ascii (c : ascii) : ascii :=
  if (65 <=? ascii_code c)%nat && (ascii_code c <=? 90)%nat
  then ascii_of_nat (ascii_code c + 32) else c.

(** Modelled from the spec: the constructor [Address(x)] of [pymaker.Address]
    (in the package's [__init__], not in this source tree).  Addresses are
    20-byte identifiers: a non-string is refused by the constructor's
    assertion; a string must be 40 hexadecimal digits, optionally after
    [0x] or [0X], or the normalisation raises [ValueError]; the stored form
    is [0x] followed by the 40 digits in one canonical case (the checksum
    capitalisation is a fixed re-encoding of the same 20 bytes, represented
    here by lower case). *)
Definition to_Address (x : PyValue) : result Address.t :=
  match x with
  | PyStr s =>
      let l := list_ascii_of_string s in
      let hex := match l with
                 | "0"%char :: x' :: rest =>
                     if (ascii_code x' =? 120)%nat || (ascii_code x' =? 88)%nat
                     then rest else l
                 | _ => l
                 end in
      if (List.length hex =? 40)%nat && forallb is_hex_digit hex
      then Ok (Address.mk ("0x" ++ string_of_list_ascii (map lower_ascii hex)))
      else Err ValueError
  | PyInt _ => Err AssertionError
  end.

(** The whitespace [str.strip] removes: space, \t, \n, \v, \f, \r. *)
Definition is_py_space (c : ascii) : bool :=
  (ascii_code c =? 32)%nat ||
  ((9 <=? ascii_code c)%nat && (ascii_code c <=? 13)%nat).

Fixpoint drop_spaces (l : list ascii) : list ascii :=
  match l with
  | c :: l' => if is_py_space c then drop_spaces l' else l
  | [] => []
  end.

Definition py_strip (l : list ascii) : list ascii :=
  rev (drop_spaces (rev (drop_spaces l))).

(** Decimal digits, where a single [_] may separate two digits; [after]
    tells whether the previous character was a digit. *)
Fixpoint parse_digits (l : list ascii) (acc : Z) (after : bool) : option Z :=
  match l with
  | [] => if after then Some acc else None
  | c :: l' =>
      if is_digit c then parse_digits l' (acc * 10 + digit_value c) true
      else if (ascii_code c =? 95)%nat && after then parse_digits l' acc false
      else None
  end.

(** [int(s)] on a string, base 10: surrounding whitespace, an optional sign,
    then digits. *)
Definition parse_int (s : string) : option Z :=
  match py_strip (list_ascii_of_string s) with
  | c :: l =>
      if (ascii_code c =? 45)%nat then option_map Z.opp (parse_digits l 0 false)
      else if (ascii_code c =? 43)%nat then parse_digits l 0 false
      else parse_digits (c :: l) 0 false
  | [] => None
  end.

(** [int(x)]: an integer is returned as is; a string is parsed, and one
    that is not a decimal numeral raises [ValueError]. *)
Definition to_int (x : PyValue) : result Z :=
  match x with
  | PyInt z => Ok z
  | PyStr s =>
      match parse_int s with
      | Some z => Ok z
      | None => Err ValueError
      end
  end.

(** [array[i]] on a returned tuple. *)
Definition py_index (array : list PyValue) (i : nat) : result PyValue :=
  match nth_error array i with
  | Some v => Ok v
  | None => Err IndexError
  end.

Definition rbind {A B} (r : result A) (k : A -> result B) : result B :=
  match r with
  | Ok a => k a
  | Err e => Err e
  end.

Notation "x <-? r ;; k" := (rbind r (fun x => k))
  (at level 61, r at next level, right associativity).

(** ** The client object and its world *)

(** The web3 handle and the contract binding are opaque handles. *)
Record Web3 := mkWeb3 { web3_id : nat }.
Record ContractBinding := mkBinding { binding_id : nat }.

(** The fields set by [__init__]: [self.web3], [self.address],
    [self._contract]. *)
Record Client := mkClient {
  web3 : Web3;
  address : Address.t;
  contract : ContractBinding
}.

(** State of the contract at [self.address], as its read functions see it. *)
Record Ledger := mkLedger {
  l_era : Z;
  l_beg : Z;
  l_ttl : Z;
  l_tau : Z;
  l_kicks : Z;
  l_bids : Z -> list PyValue
}.

(** The read calls a client can issue through [self._contract.call()]. *)
Inductive LedgerCall :=
| CallEra
| CallBeg
| CallTtl
| CallTau
| CallKicks
| CallBids (id : Z).

Record World := mkWorld {
  self : Client;
  ledger : Ledger;
  calls : list LedgerCall
}.

Definition M (A : Type) : Type := World -> result A * World.

Definition ret {A} (a : A) : M A := fun w => (Ok a, w).

Definition bind {A B} (m : M A) (k : A -> M B) : M B :=
  fun w => match m w with
           | (Ok a, w') => k a w'
           | (Err e, w') => (Err e, w')
           end.

Notation "x <- m ;; k" := (bind m (fun x => k))
  (at level 61, m at next level, right associativity).

Definition lift {A} (r : result A) : M A := fun w => (r, w).

Definition get_self : M Client := fun w => (Ok (self w), w).

Definition log_call (c : LedgerCall) (w : World) : World :=
  mkWorld (self w) (ledger w) (calls w ++ [c]).

(** [self._contract.call().kicks()] *)
Definition call_kicks : M Z :=
  fun w => (Ok (l_kicks (ledger w)), log_call CallKicks w).

(** [self._contract.call().bids(id)] *)
Definition call_bids (id : Z) : M (list PyValue) :=
  fun w => (Ok (l_bids (ledger w) id), log_call (CallBids id) w).

(** [self._contract.call().era()] *)
Definition call_era : M Z :=
  fun w => (Ok (l_era (ledger w)), log_call CallEra w).

(** [self._contract.call().beg()] *)
Definition call_beg : M Z :=
  fun w => (Ok (l_beg (ledger w)), log_call CallBeg w).

(** [self._contract.call().ttl()] *)
Definition call_ttl : M Z :=
  fun w => (Ok (l_ttl (ledger w)), log_call CallTtl w).

(** [self._contract.call().tau()] *)
Definition call_tau : M Z :=
  fun w => (Ok (l_tau (ledger w)), log_call CallTau w).

(** Modelled from the spec: [pymaker.Transact] (in the package's
    [__init__], not in this source tree), the unsubmitted request object:
    its constructor stores the origin, the web3 handle, the ABI, the
    contract address and binding, the function name and the parameter
    list; signing and submission happen later, outside the client. *)
Record Transact := mkTransact {
  origin : Client;
  t_web3 : Web3;
  t_abi : string;
  t_address : Address.t;
  t_contract : ContractBinding;
  function_name : string;
  parameters : list PyValue
}.

(** [Transact(self, self.web3, self.abi, self.address, self._contract,
    name, args)] *)
Definition transact (abi : string) (name : string) (args : list PyValue)
  : M Transact :=
  s <- get_self ;;
  ret (mkTransact s (web3 s) abi (address s) (contract s) name args).

(** The request [transact] builds for client [s]. *)
Definition request_of (s : Client) (abi name : string) (args : list PyValue)
  : Transact :=
  mkTransact s (web3 s) abi (address s) (contract s) name args.

(** Python attribute lookup on a client instance. *)
Definition has_method (methods : list string) (name : string) : bool :=
  existsb (String.eqb name) methods.

Definition getattr (methods : list string) (name : string) : result unit :=
  if has_method methods name then Ok tt else Err AttributeError.

(** ** [class Flipper(Contract)] *)
Module Flipper.
(** [abi = Contract._load_abi(__name__, 'abi/Flipper.abi')]: the loaded
    interface, identified here by the resource it is loaded from.  The
    client only hands it on to [Transact] and never inspects it. *)
Definition abi : string := "abi/Flipper.abi".

(** The attributes the class defines (the base class [Contract] adds
    only its private deployment and loading helpers). *)
Definition methods : list string :=
  ["deploy"; "__init__"; "era"; "pie"; "gem"; "beg"; "ttl"; "tau";
   "kick"; "tend"; "dent"; "deal"; "__repr__"].

Definition kick (lad gal : Address.t) (tab : Z) (lot bid : Wad) : M Transact :=
  transact abi "kick"
    [PyStr (Address.address lad); PyStr (Address.address gal);
     PyInt tab; PyInt (value lot); PyInt (value bid)].

Definition tend (id : Z) (lot bid : Wad) : M Transact :=
  transact abi "tend" [PyInt id; PyInt (value lot); PyInt (value bid)].

Definition dent (id : Z) (lot bid : Wad) : M Transact :=
  transact abi "dent" [PyInt id; PyInt (value lot); PyInt (value bid)].

Definition deal (id : Z) : M Transact :=
  transact abi "deal" [PyInt id].
(** [era]: the contract's answer, returned as is. *)
Definition era : M Z :=
  call_era.

(** [beg]: [Wad(self._contract.call().beg())]. *)
Definition beg : M Wad :=
  x <- call_beg ;; ret (mkWad x).

(** [ttl]: [int(self._contract.call().ttl())]. *)
Definition ttl : M Z :=
  x <- call_ttl ;; ret x.

(** [tau]: [int(self._contract.call().tau())]. *)
Definition tau : M Z :=
  x <- call_tau ;; ret x.

(** [__repr__]: [f"Flipper('{self.address}')"], the address printed as
    its string form. *)
Definition repr : M string :=
  s <- get_self ;; ret ("Flipper('" ++ Address.address (address s) ++ "')").
End Flipper.

(** ** [class Flapper(Contract)] *)
Module Flapper.
(** [abi = Contract._load_abi(__name__, 'abi/Flapper.abi')]: the loaded
    interface, identified here by the resource it is loaded from.  The
    client only hands it on to [Transact] and never inspects it. *)
Definition abi : string := "abi/Flapper.abi".

(** [Flapper.Bid]; [end] is a keyword of Rocq, hence [end_]. *)
Record Bid := mkBid {
  bid : Wad;
  lot : Wad;
  guy : Address.t;
  tic : Z;
  end_ : Z
}.

Definition methods : list string :=
  ["Bid"; "deploy"; "__init__"; "approve"; "era"; "pie"; "gem"; "beg";
   "ttl"; "tau"; "kicks"; "bids"; "kick"; "tend"; "deal"; "__repr__"].

Definition kicks : M Z :=
  k <- call_kicks ;; ret k.

(** The body of [bids] after the call: [Flapper.Bid(bid=Wad(array[0]),
    lot=Wad(array[1]), guy=Address(array[2]), tic=int(array[3]),
    end=int(array[4]))], arguments evaluated left to right. *)
Definition decode (array : list PyValue) : result Bid :=
  a0 <-? py_index array 0 ;; b <-? to_Wad a0 ;;
  a1 <-? py_index array 1 ;; l <-? to_Wad a1 ;;
  a2 <-? py_index array 2 ;; g <-? to_Address a2 ;;
  a3 <-? py_index array 3 ;; t <-? to_int a3 ;;
  a4 <-? py_index array 4 ;; e <-? to_int a4 ;;
  Ok (mkBid b l g t e).

Definition bids (id : Z) : M Bid :=
  array <- call_bids id ;; lift (decode array).

Definition kick (gal : Address.t) (lot bid : Wad) : M Transact :=
  transact abi "kick"
    [PyStr (Address.address gal); PyInt (value lot); PyInt (value bid)].

Definition tend (id : Z) (lot bid : Wad) : M Transact :=
  transact abi "tend" [PyInt id; PyInt (value lot); PyInt (value bid)].

Definition deal (id : Z) : M Transact :=
  transact abi "deal" [PyInt id].
(** [era]: the contract's answer, returned as is. *)
Definition era : M Z :=
  call_era.

(** [beg]: [Wad(self._contract.call().beg())]. *)
Definition beg : M Wad :=
  x <- call_beg ;; ret (mkWad x).

(** [ttl]: [int(self._contract.call().ttl())]. *)
Definition ttl : M Z :=
  x <- call_ttl ;; ret x.

(** [tau]: [int(self._contract.call().tau())]. *)
Definition tau : M Z :=
  x <- call_tau ;; ret x.

(** [__repr__]: [f"Flapper('{self.address}')"], the address printed as
    its string form. *)
Definition repr : M string :=
  s <- get_self ;; ret ("Flapper('" ++ Address.address (address s) ++ "')").
End Flapper.

(** ** [class Flopper(Contract)] *)
Module Flopper.
(** [abi = Contract._load_abi(__name__, 'abi/Flopper.abi')]: the loaded
    interface, identified here by the resource it is loaded from.  The
    client only hands it on to [Transact] and never inspects it. *)
Definition abi : string := "abi/Flopper.abi".

Record Bid := mkBid {
  bid : Wad;
  lot : Wad;
  guy : Address.t;
  tic : Z;
  end_ : Z
}.

Definition methods : list string :=
  ["Bid"; "deploy"; "__init__"; "approve"; "era"; "pie"; "gem"; "beg";
   "ttl"; "tau"; "kicks"; "bids"; "kick"; "dent"; "deal"; "__repr__"].

Definition kicks : M Z :=
  k <- call_kicks ;; ret k.

Definition decode (array : list PyValue) : result Bid :=
  a0 <-? py_index array 0 ;; b <-? to_Wad a0 ;;
  a1 <-? py_index array 1 ;; l <-? to_Wad a1 ;;
  a2 <-? py_index array 2 ;; g <-? to_Address a2 ;;
  a3 <-? py_index array 3 ;; t <-? to_int a3 ;;
  a4 <-? py_index array 4 ;; e <-? to_int a4 ;;
  Ok (mkBid b l g t e).

Definition bids (id : Z) : M Bid :=
  array <- call_bids id ;; lift (decode array).

Definition kick (gal : Address.t) (lot bid : Wad) : M Transact :=
  transact abi "kick"
    [PyStr (Address.address gal); PyInt (value lot); PyInt (value bid)].

Definition dent (id : Z) (lot bid : Wad) : M Transact :=
  transact abi "dent" [PyInt id; PyInt (value lot); PyInt (value bid)].

Definition deal (id : Z) : M Transact :=
  transact abi "deal" [PyInt id].
(** [era]: the contract's answer, returned as is. *)
Definition era : M Z :=
  call_era.

(** [beg]: [Wad(self._contract.call().beg())]. *)
Definition beg : M Wad :=
  x <- call_beg ;; ret (mkWad x).

(** [ttl]: [int(self._contract.call().ttl())]. *)
Definition ttl : M Z :=
  x <- call_ttl ;; ret x.

(** [tau]: [int(self._contract.call().tau())]. *)
Definition tau : M Z :=
  x <- call_tau ;; ret x.

(** [__repr__]: [f"Flopper('{self.address}')"], the address printed as
    its string form. *)
Definition repr : M string :=
  s <- get_self ;; ret ("Flopper('" ++ Address.address (address s) ++ "')").
End Flopper.

(** ** Properties the specification states, in its own words

    These follow spec §3 and §4.2 (not the source, which has no
    validator) and are used only to state the claims. *)

Definition WAD : Z := 10 ^ 18.

(** An auction is active iff [now < hardDeadline] and
    ([bidDeadline == 0] or [now < bidDeadline]). *)
Definition spec_active (tic end_ now : Z) : bool :=
  (now <? end_) && ((tic =? 0) || (now <? tic)).

(** [proposedBidAmount >= currentBid * (1 + minIncreaseFraction)], the
    fraction [beg] being a scaled amount ([WAD] is one). *)
Definition spec_min_increase_ok (beg current proposed : Z) : bool :=
  current * (WAD + beg) <=? proposed * WAD.

(** An id was created iff it is among the [kicks] ids issued so far. *)
Definition spec_created (kicks id : Z) : bool :=
  (0 <? id) && (id <=? kicks).

(** The raw record the contract holds for [id], as a spec-level record:
    fields of a well-formed 5-tuple, or [None]. *)
Definition raw_tic_end (array : list PyValue) : option (Z * Z) :=
  match nth_error array 3, nth_error array 4 with
  | Some (PyInt t), Some (PyInt e) => Some (t, e)
  | _, _ => None
  end.

(** ** Concrete worlds used by the examples and counterexamples *)

Definition zero_address : string :=
  "0x0000000000000000000000000000000000000000".

Definition our_client : Client :=
  mkClient (mkWeb3 0) (Address.mk "0x00000000000000000000000000000000000000aa")
           (mkBinding 0).

(** The contract's default answer for an id it never created. *)
Definition empty_bid : list PyValue :=
  [PyInt 0; PyInt 0; PyStr zero_address; PyInt 0; PyInt 0].

(** One auction, id 1, kicked at time 1000 with [tau = 3600], [ttl = 300]
    and [beg = 0.05]: bid 100, lot 10, no bid placed yet. *)
Definition auction_1 (id : Z) : list PyValue :=
  if id =? 1 then [PyInt 100; PyInt 10; PyStr zero_address; PyInt 0; PyInt 4600]
  else empty_bid.

Definition ledger_at (era kicks : Z) (bids : Z -> list PyValue) : Ledger :=
  mkLedger era (5 * 10 ^ 16) 300 3600 kicks bids.

Definition world_at (era : Z) : World :=
  mkWorld our_client (ledger_at era 1 auction_1) [].

Definition world_nothing_kicked : World :=
  mkWorld our_client (ledger_at 1000 0 (fun _ => empty_bid)) [].

Example bids_auction_1 :
  fst (Flapper.bids 1 (world_at 1100)) =
    Ok (Flapper.mkBid (mkWad 100) (mkWad 10) (Address.mk zero_address) 0 4600).
Proof. reflexivity. Qed.

Example bids_logs_the_read :
  calls (snd (Flopper.bids 1 (world_at 1100))) = [CallBids 1].
Proof. reflexivity. Qed.

Example decode_short_tuple :
  Flapper.decode [PyInt 1; PyInt 2; PyStr zero_address; PyInt 3] = Err IndexError.
Proof. reflexivity. Qed.

Example scenario_min_increase :
  spec_min_increase_ok (5 * 10 ^ 16) 100 104 = false /\
  spec_min_increase_ok (5 * 10 ^ 16) 100 105 = true.
Proof. split; reflexivity. Qed.

Example int_of_strings :
  to_int (PyStr "42") = Ok 42 /\ to_int (PyStr " -1_000 ") = Ok (-1000) /\
  to_int (PyStr "+7") = Ok 7 /\ to_int (PyStr "1__0") = Err ValueError /\
  to_int (PyStr "_1") = Err ValueError /\ to_int (PyStr "") = Err ValueError /\
  to_int (PyStr "0x10") = Err ValueError.
Proof. repeat split; reflexivity. Qed.

Example address_normalised :
  to_Address (PyStr "0X00000000000000000000000000000000000000AA") =
    Ok (Address.mk "0x00000000000000000000000000000000000000aa") /\
  to_Address (PyStr "00000000000000000000000000000000000000aa") =
    Ok (Address.mk "0x00000000000000000000000000000000000000aa") /\
  to_Address (PyStr "alice") = Err ValueError /\
  to_Address (PyInt 5) = Err AssertionError.
Proof. repeat split; reflexivity. Qed.

Example decode_numeric_string_timestamp :
  Flapper.decode [PyInt 100; PyInt 10; PyStr zero_address; PyStr "42"; PyInt 4600] =
    Ok (Flapper.mkBid (mkWad 100) (mkWad 10) (Address.mk zero_address) 42 4600).
Proof. reflexivity. Qed.

(** ** Helper lemmas *)

(** A request built by [transact] depends only on [self] and leaves the
    world untouched. *)
Lemma transact_run : forall abi name args w,
  transact abi name args w =
    (Ok (mkTransact (self w) (web3 (self w)) abi (address (self w))
                    (contract (self w)) name args), w).
Proof. reflexivity. Qed.

Lemma bids_run_Flapper : forall id w,
  Flapper.bids id w =
    (Flapper.decode (l_bids (ledger w) id), log_call (CallBids id) w).
Proof. reflexivity. Qed.

Lemma bids_run_Flopper : forall id w,
  Flopper.bids id w =
    (Flopper.decode (l_bids (ledger w) id), log_call (CallBids id) w).
Proof. reflexivity. Qed.

Ltac run_transact := repeat (unfold Flipper.kick, Flipper.tend, Flipper.dent,
  Flipper.deal, Flapper.kick, Flapper.tend, Flapper.deal, Flopper.kick,
  Flopper.dent, Flopper.deal); rewrite ?transact_run.

(** A request result naming contract function [name] with arguments [args]. *)
Definition request_is (r : result Transact) (name : string) (args : list PyValue)
  : Prop :=
  match r with
  | Ok t => function_name t = name /\ parameters t = args
  | Err _ => False
  end.

(** ** C1: mutating methods neither re-read nor validate *)

(** C1 (counterexample): auction 1 is still active at time 1100 (its
    [tic] is 0 and its [end] 4600), so settling it is outside its legal
    state; yet [Flapper.deal 1] returns the [deal] request, without
    reading the record (the call log stays empty) and without failing. *)
Lemma C1_deal_of_active_auction_not_rejected :
  raw_tic_end (l_bids (ledger (world_at 1100)) 1) = Some (0, 4600) /\
  spec_active 0 4600 1100 = true /\
  Flapper.deal 1 (world_at 1100) =
    (Ok (mkTransact our_client (mkWeb3 0) Flapper.abi (address our_client)
                    (mkBinding 0) "deal" [PyInt 1]),
     world_at 1100) /\
  calls (snd (Flapper.deal 1 (world_at 1100))) = [].
Proof. repeat split; reflexivity. Qed.

(** C1 (amended): no mutating method of any client reads the ledger or
    validates; for every argument and whatever the contract's state, each
    returns its request, built from the client object alone, and leaves the
    world, call log included, as it was. *)
Theorem mutating_ops_ignore_ledger :
  forall (w : World) (lad gal : Address.t) (tab id : Z) (lot bid : Wad),
  let s := self w in
  let args := [PyInt id; PyInt (value lot); PyInt (value bid)] in
  Flipper.kick lad gal tab lot bid w =
    (Ok (request_of s Flipper.abi "kick"
           [PyStr (Address.address lad); PyStr (Address.address gal);
            PyInt tab; PyInt (value lot); PyInt (value bid)]), w) /\
  Flipper.tend id lot bid w = (Ok (request_of s Flipper.abi "tend" args), w) /\
  Flipper.dent id lot bid w = (Ok (request_of s Flipper.abi "dent" args), w) /\
  Flipper.deal id w = (Ok (request_of s Flipper.abi "deal" [PyInt id]), w) /\
  Flapper.kick gal lot bid w =
    (Ok (request_of s Flapper.abi "kick"
           [PyStr (Address.address gal); PyInt (value lot); PyInt (value bid)]), w) /\
  Flapper.tend id lot bid w = (Ok (request_of s Flapper.abi "tend" args), w) /\
  Flapper.deal id w = (Ok (request_of s Flapper.abi "deal" [PyInt id]), w) /\
  Flopper.kick gal lot bid w =
    (Ok (request_of s Flopper.abi "kick"
           [PyStr (Address.address gal); PyInt (value lot); PyInt (value bid)]), w) /\
  Flopper.dent id lot bid w = (Ok (request_of s Flopper.abi "dent" args), w) /\
  Flopper.deal id w = (Ok (request_of s Flopper.abi "deal" [PyInt id]), w).
Proof. intros; run_transact; repeat split. Qed.

(** ** C2: there is no raise-bid validator *)

(** C2 (counterexample): at time 5000 auction 1 has passed its [end]
    (4600) and is not active; a bid of 50 is below [100 * 1.05] and the
    lot 7 differs from the current lot 10; [Flipper.tend] still returns
    the [tend] request. *)
Lemma C2_tend_on_expired_auction_not_rejected :
  raw_tic_end (l_bids (ledger (world_at 5000)) 1) = Some (0, 4600) /\
  spec_active 0 4600 5000 = false /\
  spec_min_increase_ok (l_beg (ledger (world_at 5000))) 100 50 = false /\
  fst (Flipper.tend 1 (mkWad 7) (mkWad 50) (world_at 5000)) =
    Ok (mkTransact our_client (mkWeb3 0) Flipper.abi (address our_client)
                   (mkBinding 0) "tend" [PyInt 1; PyInt 7; PyInt 50]).
Proof. repeat split; reflexivity. Qed.

(** C2 (amended): the raise-bid methods [Flipper.tend] and [Flapper.tend]
    never fail: for every id, lot, bid and ledger state they return the
    [tend] request with arguments [[id; lot; bid]], whether or not the
    auction is active, the bid meets the minimum increase (or [tab]), or
    the lot is unchanged. *)
Theorem tend_never_rejects : forall (w : World) (id : Z) (lot bid : Wad),
  fst (Flipper.tend id lot bid w) =
    Ok (mkTransact (self w) (web3 (self w)) Flipper.abi (address (self w))
                   (contract (self w)) "tend"
                   [PyInt id; PyInt (value lot); PyInt (value bid)]) /\
  fst (Flapper.tend id lot bid w) =
    Ok (mkTransact (self w) (web3 (self w)) Flapper.abi (address (self w))
                   (contract (self w)) "tend"
                   [PyInt id; PyInt (value lot); PyInt (value bid)]).
Proof. intros; run_transact; split; reflexivity. Qed.

(** ** C3: the read surface of the three clients *)

(** C3 (code defect): [Flipper] defines neither [bids] nor [kicks], so
    looking them up on a [Flipper] instance raises [AttributeError], while
    [Flapper] and [Flopper] define both; [beg], [ttl], [tau] and [deal]
    exist on all three. *)
Theorem flipper_lacks_record_and_count :
  getattr Flipper.methods "bids" = Err AttributeError /\
  getattr Flipper.methods "kicks" = Err AttributeError /\
  getattr Flapper.methods "bids" = Ok tt /\
  getattr Flapper.methods "kicks" = Ok tt /\
  getattr Flopper.methods "bids" = Ok tt /\
  getattr Flopper.methods "kicks" = Ok tt /\
  Forall (fun m => getattr Flipper.methods m = Ok tt /\
                   getattr Flapper.methods m = Ok tt /\
                   getattr Flopper.methods m = Ok tt)
         ["beg"; "ttl"; "tau"; "deal"].
Proof. repeat split; repeat constructor. Qed.

(** ** C4: shape of the bid and settle requests *)

(** C4: every bid or settle request names the contract function and
    carries its arguments in the interface's order: [tend(id, lot, bid)],
    [dent(id, lot, bid)] and [deal(id)], on every client that has the
    method. *)
Theorem bid_and_settle_requests_shape :
  forall (w : World) (id : Z) (lot bid : Wad),
  let args := [PyInt id; PyInt (value lot); PyInt (value bid)] in
  request_is (fst (Flipper.tend id lot bid w)) "tend" args /\
  request_is (fst (Flapper.tend id lot bid w)) "tend" args /\
  request_is (fst (Flipper.dent id lot bid w)) "dent" args /\
  request_is (fst (Flopper.dent id lot bid w)) "dent" args /\
  request_is (fst (Flipper.deal id w)) "deal" [PyInt id] /\
  request_is (fst (Flapper.deal id w)) "deal" [PyInt id] /\
  request_is (fst (Flopper.deal id w)) "deal" [PyInt id].
Proof. intros; run_transact; simpl; repeat split. Qed.

(** ** C5: argument order of the debt-auction [kick] *)

(** C5 (counterexample): [Flopper.kick(gal, lot=1, bid=2)] puts the lot
    in second position and the fixed bid last, so the second argument is
    not the bid. *)
Lemma C5_flopper_kick_lot_before_bid :
  request_is (fst (Flopper.kick (Address.mk zero_address) (mkWad 1) (mkWad 2)
                                (world_at 1000)))
             "kick" [PyStr zero_address; PyInt 1; PyInt 2] /\
  match fst (Flopper.kick (Address.mk zero_address) (mkWad 1) (mkWad 2)
                          (world_at 1000)) with
  | Ok t => nth_error (parameters t) 1 <> Some (PyInt 2)
  | Err _ => False
  end.
Proof. split; [repeat split | simpl; discriminate]. Qed.

(** C5 (amended): the debt-auction [kick] carries its arguments in the
    order (beneficiary, initial lot, fixed bid). *)
Theorem flopper_kick_argument_order :
  forall (w : World) (gal : Address.t) (lot bid : Wad),
  request_is (fst (Flopper.kick gal lot bid w)) "kick"
             [PyStr (Address.address gal); PyInt (value lot); PyInt (value bid)].
Proof. intros; run_transact; simpl; split; reflexivity. Qed.

(** ** C6: the record query has no existence check *)

(** C6 (counterexample): no auction was ever kicked ([kicks] is 0), so id
    5 was never created; [Flapper.bids 5] does not fail but returns the
    decoded all-zero record the contract answers with. *)
Lemma C6_uncreated_id_decoded :
  spec_created (l_kicks (ledger world_nothing_kicked)) 5 = false /\
  fst (Flapper.bids 5 world_nothing_kicked) =
    Ok (Flapper.mkBid (mkWad 0) (mkWad 0) (Address.mk zero_address) 0 0).
Proof. split; reflexivity. Qed.

(** C6 (amended): for every id, created or not, the record query makes
    the [bids(id)] read call and returns the decoding of whatever the
    contract answers; the auction count plays no part, and the only
    failures are those of decoding. *)
Theorem bids_has_no_existence_check : forall (w : World) (id k : Z),
  Flapper.bids id w =
    (Flapper.decode (l_bids (ledger w) id), log_call (CallBids id) w) /\
  Flopper.bids id w =
    (Flopper.decode (l_bids (ledger w) id), log_call (CallBids id) w) /\
  fst (Flapper.bids id w) =
    fst (Flapper.bids id
           (mkWorld (self w)
              (mkLedger (l_era (ledger w)) (l_beg (ledger w)) (l_ttl (ledger w))
                        (l_tau (ledger w)) k (l_bids (ledger w)))
              (calls w))).
Proof.
  intros w id k; split; [apply bids_run_Flapper | split; [apply bids_run_Flopper |]].
  rewrite !bids_run_Flapper; reflexivity.
Qed.

(** ** C7: positional decoding of a record *)

(** Case analysis on the conversions a decoder runs, in their order. *)
Ltac split_conversions H :=
  repeat (match type of H with
          | context [rbind ?r _] =>
              let E := fresh "E" in destruct r eqn:E; simpl in H
          end); try discriminate H.

Lemma Flapper_decode_cons5 : forall x0 x1 x2 x3 x4 rest,
  Flapper.decode ([x0; x1; x2; x3; x4] ++ rest)%list =
    (b <-? to_Wad x0 ;; l <-? to_Wad x1 ;; g <-? to_Address x2 ;;
     t <-? to_int x3 ;; e <-? to_int x4 ;; Ok (Flapper.mkBid b l g t e)).
Proof. reflexivity. Qed.

(** [Flopper.decode] is [Flapper.decode] with the other class's [Bid]. *)
Lemma Flopper_decode_from_Flapper : forall arr,
  Flopper.decode arr =
    match Flapper.decode arr with
    | Ok b => Ok (Flopper.mkBid (Flapper.bid b) (Flapper.lot b) (Flapper.guy b)
                                (Flapper.tic b) (Flapper.end_ b))
    | Err e => Err e
    end.
Proof.
  intros arr; unfold Flapper.decode, Flopper.decode.
  repeat (match goal with |- context [rbind ?r _] => destruct r; simpl end);
  reflexivity.
Qed.

Lemma Flapper_decode_short : forall arr,
  (List.length arr < 5)%nat -> exists e, Flapper.decode arr = Err e.
Proof.
  intros arr Hlen.
  destruct arr as [|x0 [|x1 [|x2 [|x3 [|x4 rest]]]]]; simpl in Hlen; try lia;
  unfold Flapper.decode; simpl;
  repeat (match goal with |- context [rbind ?r _] => destruct r; simpl end);
  eexists; reflexivity.
Qed.

Lemma Flapper_decode_ok : forall arr b,
  Flapper.decode arr = Ok b <->
  exists x0 x1 x2 x3 x4 rest,
    arr = ([x0; x1; x2; x3; x4] ++ rest)%list /\
    to_Wad x0 = Ok (Flapper.bid b) /\ to_Wad x1 = Ok (Flapper.lot b) /\
    to_Address x2 = Ok (Flapper.guy b) /\ to_int x3 = Ok (Flapper.tic b) /\
    to_int x4 = Ok (Flapper.end_ b).
Proof.
  intros arr b; split.
  - intros H.
    destruct arr as [|x0 [|x1 [|x2 [|x3 [|x4 rest]]]]];
      unfold Flapper.decode in H; simpl in H; split_conversions H.
    injection H as <-. exists x0, x1, x2, x3, x4, rest; simpl; auto 6.
  - intros (x0 & x1 & x2 & x3 & x4 & rest & -> & E0 & E1 & E2 & E3 & E4).
    rewrite Flapper_decode_cons5, E0, E1, E2, E3, E4; simpl.
    destruct b; reflexivity.
Qed.

(** C7: [bids(id)] succeeds with record [b] exactly when the returned
    tuple has at least five entries and, position by position, entry 0
    converts ([Wad]) to [bid], entry 1 ([Wad]) to [lot], entry 2
    ([Address]) to [guy], entry 3 ([int]) to [tic] and entry 4 ([int]) to
    [end]; anything after position 4 is never read.  This holds for both
    [Flapper.bids] and [Flopper.bids]. *)
Theorem bids_positional_decoding : forall (w : World) (id : Z),
  (forall b : Flapper.Bid,
     fst (Flapper.bids id w) = Ok b <->
     exists x0 x1 x2 x3 x4 rest,
       l_bids (ledger w) id = ([x0; x1; x2; x3; x4] ++ rest)%list /\
       to_Wad x0 = Ok (Flapper.bid b) /\ to_Wad x1 = Ok (Flapper.lot b) /\
       to_Address x2 = Ok (Flapper.guy b) /\ to_int x3 = Ok (Flapper.tic b) /\
       to_int x4 = Ok (Flapper.end_ b)) /\
  (forall b : Flopper.Bid,
     fst (Flopper.bids id w) = Ok b <->
     exists x0 x1 x2 x3 x4 rest,
       l_bids (ledger w) id = ([x0; x1; x2; x3; x4] ++ rest)%list /\
       to_Wad x0 = Ok (Flopper.bid b) /\ to_Wad x1 = Ok (Flopper.lot b) /\
       to_Address x2 = Ok (Flopper.guy b) /\ to_int x3 = Ok (Flopper.tic b) /\
       to_int x4 = Ok (Flopper.end_ b)).
Proof.
  intros w id; rewrite bids_run_Flapper, bids_run_Flopper; simpl.
  generalize (l_bids (ledger w) id); intros arr.
  split; intros b.
  - apply Flapper_decode_ok.
  - rewrite Flopper_decode_from_Flapper.
    destruct b as [bb bl bg bt be]; simpl; split.
    + destruct (Flapper.decode arr) as [b'|e] eqn:D; intros H; [|discriminate H].
      injection H as <- <- <- <- <-.
      apply Flapper_decode_ok in D; exact D.
    + intros X.
      assert (D : Flapper.decode arr = Ok (Flapper.mkBid bb bl bg bt be))
        by (apply Flapper_decode_ok; exact X).
      rewrite D; reflexivity.
Qed.

(** ** C8: [kick] performs no value checks *)

(** C8 (counterexample): [Flipper.kick] with [tab = 0], [lot = 0] and
    [bid = 0] returns the [kick] request instead of failing. *)
Lemma C8_kick_with_zero_quantities_not_rejected :
  request_is (fst (Flipper.kick (Address.mk zero_address) (Address.mk zero_address)
                                0 (mkWad 0) (mkWad 0) (world_at 1000)))
             "kick" [PyStr zero_address; PyStr zero_address; PyInt 0; PyInt 0; PyInt 0].
Proof. repeat split. Qed.

(** C8 (amended): [kick] of every client checks no quantity: for all
    arguments, including non-positive [tab], lot or bid, it returns the
    [kick] request with the arguments in the variant's order. *)
Theorem kick_accepts_any_quantities :
  forall (w : World) (lad gal : Address.t) (tab : Z) (lot bid : Wad),
  request_is (fst (Flipper.kick lad gal tab lot bid w)) "kick"
    [PyStr (Address.address lad); PyStr (Address.address gal); PyInt tab;
     PyInt (value lot); PyInt (value bid)] /\
  request_is (fst (Flapper.kick gal lot bid w)) "kick"
    [PyStr (Address.address gal); PyInt (value lot); PyInt (value bid)] /\
  request_is (fst (Flopper.kick gal lot bid w)) "kick"
    [PyStr (Address.address gal); PyInt (value lot); PyInt (value bid)].
Proof. intros; run_transact; simpl; repeat split. Qed.

(** ** C9: mutating methods leave the world unchanged *)

(** C9: [kick], [tend], [dent] and [deal] of every client return the
    world they started from: the client object ([web3], [address],
    [_contract]), the ledger and the log of ledger calls are unchanged, so
    no ledger call is made. *)
Theorem mutating_ops_frame :
  forall (w : World) (lad gal : Address.t) (tab id : Z) (lot bid : Wad),
  snd (Flipper.kick lad gal tab lot bid w) = w /\
  snd (Flipper.tend id lot bid w) = w /\
  snd (Flipper.dent id lot bid w) = w /\
  snd (Flipper.deal id w) = w /\
  snd (Flapper.kick gal lot bid w) = w /\
  snd (Flapper.tend id lot bid w) = w /\
  snd (Flapper.deal id w) = w /\
  snd (Flopper.kick gal lot bid w) = w /\
  snd (Flopper.dent id lot bid w) = w /\
  snd (Flopper.deal id w) = w.
Proof. intros; run_transact; repeat split. Qed.

(** ** C10: the surplus and debt decoders agree *)

(** C10: on every world and id, [Flapper.bids] and [Flopper.bids] fail
    with the same exception or produce records with equal [bid], [lot],
    [guy], [tic] and [end], and leave the same world. *)
Theorem flapper_flopper_bids_agree : forall (w : World) (id : Z),
  match fst (Flapper.bids id w), fst (Flopper.bids id w) with
  | Ok b1, Ok b2 =>
      Flapper.bid b1 = Flopper.bid b2 /\ Flapper.lot b1 = Flopper.lot b2 /\
      Flapper.guy b1 = Flopper.guy b2 /\ Flapper.tic b1 = Flopper.tic b2 /\
      Flapper.end_ b1 = Flopper.end_ b2
  | Err e1, Err e2 => e1 = e2
  | _, _ => False
  end /\
  snd (Flapper.bids id w) = snd (Flopper.bids id w).
Proof.
  intros w id; rewrite bids_run_Flapper, bids_run_Flopper; simpl; split; [|reflexivity].
  rewrite Flopper_decode_from_Flapper.
  destruct (Flapper.decode (l_bids (ledger w) id)); simpl; auto.
Qed.

(** ** Further properties of the clients *)


(** [r] is a read: it leaves the world as it was, apart from the one call
    [c] appended to the log. *)
Definition read_only {A} (r : M A) (c : LedgerCall) : Prop :=
  forall w, snd (r w) = log_call c w.

Lemma string_length_append : forall a b : string,
  String.length (a ++ b) = (String.length a + String.length b)%nat.
Proof. induction a as [|ch a IH]; intros b; simpl; [reflexivity | now rewrite IH]. Qed.

Lemma string_append_cancel_l : forall p a b : string,
  (p ++ a = p ++ b)%string -> a = b.
Proof. induction p as [|ch p IH]; intros a b H; simpl in H; [exact H |].
  injection H as H; exact (IH a b H). Qed.

Lemma string_append_cancel_r : forall a b s : string,
  (a ++ s = b ++ s)%string -> a = b.
Proof.
  induction a as [|ca a IH]; intros [|cb b] s H; simpl in H.
  - reflexivity.
  - apply (f_equal String.length) in H; simpl in H;
      rewrite string_length_append in H; lia.
  - apply (f_equal String.length) in H; simpl in H;
      rewrite string_length_append in H; lia.
  - injection H as -> H; f_equal; exact (IH b s H).
Qed.

(** X1: every read method of every client ([era], [beg], [ttl], [tau],
    and [kicks], [bids] where defined) issues exactly its one ledger call
    and changes nothing else: the client object and the ledger stay as
    they were. *)
Theorem reads_only_log_their_call : forall id : Z,
  read_only Flipper.era CallEra /\ read_only Flipper.beg CallBeg /\
  read_only Flipper.ttl CallTtl /\ read_only Flipper.tau CallTau /\
  read_only Flapper.era CallEra /\ read_only Flapper.beg CallBeg /\
  read_only Flapper.ttl CallTtl /\ read_only Flapper.tau CallTau /\
  read_only Flapper.kicks CallKicks /\ read_only (Flapper.bids id) (CallBids id) /\
  read_only Flopper.era CallEra /\ read_only Flopper.beg CallBeg /\
  read_only Flopper.ttl CallTtl /\ read_only Flopper.tau CallTau /\
  read_only Flopper.kicks CallKicks /\ read_only (Flopper.bids id) (CallBids id) /\
  (forall c w, self (log_call c w) = self w /\ ledger (log_call c w) = ledger w).
Proof. intros id; repeat split; intros w; reflexivity. Qed.

(** X2: reading a record twice, with or without a request built in
    between, gives the same result both times, and each read goes to the
    ledger again (nothing is cached). *)
Theorem bids_reread_same : forall (w : World) (id id' : Z) (lot bid : Wad),
  fst (Flapper.bids id (snd (Flapper.bids id w))) = fst (Flapper.bids id w) /\
  calls (snd (Flapper.bids id (snd (Flapper.bids id w)))) =
    (calls w ++ [CallBids id; CallBids id])%list /\
  fst (Flapper.bids id (snd (Flapper.tend id' lot bid (snd (Flapper.bids id w))))) =
    fst (Flapper.bids id w) /\
  fst (Flopper.bids id (snd (Flopper.bids id w))) = fst (Flopper.bids id w) /\
  calls (snd (Flopper.bids id (snd (Flopper.bids id w)))) =
    (calls w ++ [CallBids id; CallBids id])%list /\
  fst (Flopper.bids id (snd (Flopper.dent id' lot bid (snd (Flopper.bids id w))))) =
    fst (Flopper.bids id w).
Proof.
  intros; rewrite !bids_run_Flapper, !bids_run_Flopper; run_transact; simpl.
  rewrite <- !app_assoc; repeat split.
Qed.

(** X3: a returned tuple with fewer than five entries never decodes; both
    decoders fail, with the same exception. *)
Theorem decode_short_tuple_fails : forall arr : list PyValue,
  (List.length arr < 5)%nat ->
  exists e, Flapper.decode arr = Err e /\ Flopper.decode arr = Err e.
Proof.
  intros arr Hlen.
  destruct (Flapper_decode_short arr Hlen) as [e He].
  exists e; rewrite Flopper_decode_from_Flapper, He; split; reflexivity.
Qed.

Lemma decode_short_tuple_fails_witness :
  (List.length [PyInt 7; PyInt 3; PyStr zero_address] < 5)%nat /\
  exists e, Flapper.decode [PyInt 7; PyInt 3; PyStr zero_address] = Err e /\
            Flopper.decode [PyInt 7; PyInt 3; PyStr zero_address] = Err e.
Proof.
  split; [simpl; lia |].
  apply (decode_short_tuple_fails [PyInt 7; PyInt 3; PyStr zero_address]).
  simpl; lia.
Defined.





(** X5: within a class, [__repr__] determines the client's address: two
    clients with the same representation have the same address. *)
Theorem repr_determines_address : forall w1 w2 : World,
  fst (Flipper.repr w1) = fst (Flipper.repr w2) \/
  fst (Flapper.repr w1) = fst (Flapper.repr w2) \/
  fst (Flopper.repr w1) = fst (Flopper.repr w2) ->
  address (self w1) = address (self w2).
Proof.
  intros w1 w2 H.
  destruct (address (self w1)) as [a1] eqn:E1, (address (self w2)) as [a2] eqn:E2.
  f_equal.
  destruct H as [H | [H | H]]; simpl in H; rewrite E1, E2 in H; simpl in H;
    injection H as H; apply string_append_cancel_r in H; exact H.
Qed.

Lemma repr_determines_address_witness :
  (fst (Flipper.repr (world_at 1000)) = fst (Flipper.repr world_nothing_kicked) \/
   fst (Flapper.repr (world_at 1000)) = fst (Flapper.repr world_nothing_kicked) \/
   fst (Flopper.repr (world_at 1000)) = fst (Flopper.repr world_nothing_kicked)) /\
  address (self (world_at 1000)) = address (self world_nothing_kicked).
Proof.
  assert (H : fst (Flipper.repr (world_at 1000)) = fst (Flipper.repr world_nothing_kicked) \/
              fst (Flapper.repr (world_at 1000)) = fst (Flapper.repr world_nothing_kicked) \/
              fst (Flopper.repr (world_at 1000)) = fst (Flopper.repr world_nothing_kicked))
    by (right; left; reflexivity).
  split; [exact H |].
  exact (repr_determines_address (world_at 1000) world_nothing_kicked H).
Defined.

(** X6: the representations of the three classes never coincide,
    whatever the clients' addresses. *)
Theorem repr_names_class : forall w1 w2 : World,
  fst (Flipper.repr w1) <> fst (Flapper.repr w2) /\
  fst (Flipper.repr w1) <> fst (Flopper.repr w2) /\
  fst (Flapper.repr w1) <> fst (Flopper.repr w2).
Proof. intros w1 w2; repeat split; simpl; discriminate. Qed.

(** X8: which bid transitions each class offers: [Flipper] has both
    [tend] and [dent], [Flapper] only [tend], [Flopper] only [dent]; all
    three have [kick] and [deal]. *)
Theorem bid_transition_table :
  has_method Flipper.methods "tend" = true /\ has_method Flipper.methods "dent" = true /\
  has_method Flapper.methods "tend" = true /\ has_method Flapper.methods "dent" = false /\
  has_method Flopper.methods "tend" = false /\ has_method Flopper.methods "dent" = true /\
  Forall (fun m => has_method Flipper.methods m = true /\
                   has_method Flapper.methods m = true /\
                   has_method Flopper.methods m = true) ["kick"; "deal"].
Proof. repeat split; repeat constructor. Qed.
